(** * Tribler.Core.DownloadState: a snapshot of the state of a Download

    A shallow embedding of [src/Tribler/Core/DownloadState.py].  Python
    objects become records, [None]-able values become [option]s, Python
    ints are [Z], Python floats are the kernel's binary64 floats, and the
    [IndexError] a list subscript can raise is an explicit result. *)

From Stdlib Require Import ZArith Floats Lia.
From stdpp Require Import base option list strings.

Local Open Scope Z_scope.

(** ** Python primitives used by the constructor *)

Module Py.

(** The only exception the modelled code can raise: a list subscript
    out of range. *)
Inductive exc : Set := IndexError.

Inductive result (A : Type) : Type :=
| Ok (a : A)
| Raise (e : exc).
Global Arguments Ok {A} a.
Global Arguments Raise {A} e.

Global Instance result_ret : MRet result := fun _ a => Ok a.
Global Instance result_bind : MBind result := fun _ _ f m =>
  match m with
  | Ok a => f a
  | Raise e => Raise e
  end.

(** [l[i]]: a negative subscript counts from the end of the list. *)
Definition norm_index (n i : Z) : Z := if i <? 0 then i + n else i.

Definition getitem {A} (l : list A) (i : Z) : result A :=
  let j := norm_index (Z.of_nat (length l)) i in
  if (j <? 0) || (Z.of_nat (length l) <=? j) then Raise IndexError
  else match l !! Z.to_nat j with
       | Some x => Ok x
       | None => Raise IndexError
       end.

(** [l[i] = x]: the store raises where stdpp's insert would do nothing. *)
Definition setitem {A} (l : list A) (i : Z) (x : A) : result (list A) :=
  let j := norm_index (Z.of_nat (length l)) i in
  if (j <? 0) || (Z.of_nat (length l) <=? j) then Raise IndexError
  else Ok (<[Z.to_nat j := x]> l).

(** [range(a, b)]: empty when [b <= a]. *)
Definition range (a b : Z) : list Z := seqZ a (b - a).

(** [[x] * n]: empty when [n <= 0]. *)
Definition repeat {A} (x : A) (n : Z) : list A := replicate (Z.to_nat n) x.

(** [for x in l: s = body(s, x)], stopping at the first exception. *)
Fixpoint for_in {A S} (l : list A) (body : S → A → result S) (s : S) : result S :=
  match l with
  | [] => Ok s
  | x :: l' => s' ← body s x; for_in l' body s'
  end.

(** [[f(x) for x in l]] for a body that may raise. *)
Fixpoint comprehension {A B} (f : A → result B) (l : list A) : result (list B) :=
  match l with
  | [] => Ok []
  | x :: l' => y ← f x; ys ← comprehension f l'; Ok (y :: ys)
  end.

(** [l[a:b]]: a slice clamps its bounds and never raises. *)
Definition clamp_index (n i : Z) : Z :=
  if i <? 0 then Z.max (i + n) 0 else Z.min i n.

Definition slice {A} (l : list A) (a b : Z) : list A :=
  let n := Z.of_nat (length l) in
  let a' := clamp_index n a in
  let b' := clamp_index n b in
  take (Z.to_nat (b' - a')) (drop (Z.to_nat a') l).

End Py.
Import Py.

(** ** Tribler.Core.simpledefs *)

Module Simpledefs.

(** Modelled from the spec: the [DLSTATUS_*] constants are imported from
    [Tribler.Core.simpledefs], which is not among the sources; the spec
    gives the closed enumeration of lifecycle states. *)
Inductive dlstatus : Set :=
| DLSTATUS_QUEUED
| DLSTATUS_WAITING4HASHCHECK
| DLSTATUS_HASHCHECKING
| DLSTATUS_DOWNLOADING
| DLSTATUS_SEEDING
| DLSTATUS_STOPPED
| DLSTATUS_STOPPED_ON_ERROR
| DLSTATUS_ALLOCATING_DISKSPACE
| DLSTATUS_REPEXING.

Global Instance dlstatus_eq_dec : EqDecision dlstatus.
Proof. solve_decision. Defined.

(** Modelled from the spec: the transfer directions of
    [Tribler.Core.simpledefs], used by [get_current_speed]. *)
Inductive direction : Set := UPLOAD | DOWNLOAD.

Global Instance direction_eq_dec : EqDecision direction.
Proof. solve_decision. Defined.

End Simpledefs.
Import Simpledefs.

(** ** The engine's statistics *)

(** One entry of [stats['spew']]: a peer record, read through
    [i['completed']]. *)
Record Peer : Set := { completed : float }.

(** [stats['stats']]: the engine's statistics object. *)
Record StatsObj : Set := {
  have : list bool;
  numSeeds : Z;
  numPeers : Z;
}.

(** The [stats] dict handed to the constructor, one field per key read.
    Every key is present: a bundle that lacks a key, on which the
    subscript would raise [KeyError], is not a value of this type. *)
Record Stats : Set := {
  frac : float;
  up : float;
  down : float;
  stats_stats : StatsObj;
  spew : option (list Peer);
  vod_prebuf_frac : float;
  vod_playable : bool;
  vod_playable_after : float;
}.

(** A piece range of [filepieceranges]: [(t, tl, f)], first piece, one past
    the last piece, file name. *)
Definition piecerange : Set := Z * Z * string.

(** ** The snapshot *)

(** The attributes of a [DownloadState] instance.  [haveslice] is [None]
    on the paths that never assign the attribute. *)
Record DownloadState : Set := {
  download : positive;
  filepieceranges : option (list piecerange);
  logmsgs : option (list (float * string));
  error : option string;
  progress : float;
  status : option dlstatus;
  stats : option Stats;
  haveslice : option (list bool);
}.

(** The state of the copy loop: [haveslice], [haveall], [index]. *)
Definition copystate : Set := list bool * bool * Z.

(** Lines 99-102, the body of the inner loop. *)
Definition copy_piece (statsobj : StatsObj) (st : copystate) (piece : Z) : result copystate :=
  let '(haveslice, haveall, index) := st in
  v ← getitem (have statsobj) piece;
  haveslice ← setitem haveslice index v;
  w ← getitem haveslice index;
  let haveall := if haveall && bool_decide (w = false) then false else haveall in
  Ok (haveslice, haveall, index + 1).

(** Lines 97-102, one iteration of the outer loop. *)
Definition copy_range (statsobj : StatsObj) (st : copystate) (r : piecerange) : result copystate :=
  let '(t, tl, f) := r in
  for_in (range t tl) (copy_piece statsobj) st.

(** Lines 87-90. *)
Definition count_pieces (ranges : list piecerange) : Z :=
  foldl (fun totalpieces '(t, tl, f) => let diff := tl - t in totalpieces + diff) 0 ranges.

(** Lines 66-79: the statistics branch before the pieces are looked at. *)
Definition copy_info_from_stats (download : positive)
    (filepieceranges : option (list piecerange))
    (logmsgs : option (list (float * string))) (st : Stats) : DownloadState :=
  {| download := download;
     filepieceranges := filepieceranges;
     logmsgs := logmsgs;
     error := None;
     progress := frac st;
     status := if PrimFloat.eqb (frac st) 1%float
               then Some DLSTATUS_SEEDING else Some DLSTATUS_DOWNLOADING;
     stats := Some st;
     haveslice := None |}.

Definition set_haveslice (self : DownloadState) (hs : list bool) : DownloadState :=
  {| download := download self;
     filepieceranges := filepieceranges self;
     logmsgs := logmsgs self;
     error := error self;
     progress := progress self;
     status := status self;
     stats := stats self;
     haveslice := Some hs |}.

Definition set_seeding (self : DownloadState) : DownloadState :=
  {| download := download self;
     filepieceranges := filepieceranges self;
     logmsgs := logmsgs self;
     error := error self;
     progress := 1%float;
     status := Some DLSTATUS_SEEDING;
     stats := stats self;
     haveslice := haveslice self |}.

(** Lines 81-107: pieces complete.  The [print >>sys.stderr] of line 92
    writes a debug line and leaves the instance alone. *)
Definition pieces_complete (self : DownloadState) (statsobj : StatsObj) : result DownloadState :=
  match filepieceranges self with
  | None => Ok (set_haveslice self (have statsobj))
  | Some ranges =>
      let totalpieces := count_pieces ranges in
      let haveslice := repeat false totalpieces in
      let haveall := true in
      let index := 0 in
      st ← for_in ranges (copy_range statsobj) (haveslice, haveall, index);
      let '(haveslice, haveall, index) := (st : copystate) in
      let self := set_haveslice self haveslice in
      if haveall then Ok (set_seeding self) else Ok self
  end.

(** [DownloadState.__init__]. *)
Definition __init__ (download : positive) (status : option dlstatus)
    (error : option string) (progress : float) (stats : option Stats)
    (filepieceranges : option (list piecerange))
    (logmsgs : option (list (float * string))) : result DownloadState :=
  match stats with
  | None =>
      Ok {| download := download;
            filepieceranges := filepieceranges;
            logmsgs := logmsgs;
            error := error;
            progress := progress;
            status := if error is Some _ then Some DLSTATUS_STOPPED_ON_ERROR else status;
            stats := None;
            haveslice := None |}
  | Some st =>
      match error, status with
      | Some _, _ =>
          Ok {| download := download;
                filepieceranges := filepieceranges;
                logmsgs := logmsgs;
                error := error;
                progress := 0%float;
                status := Some DLSTATUS_STOPPED_ON_ERROR;
                stats := None;
                haveslice := None |}
      | None, Some s =>
          Ok {| download := download;
                filepieceranges := filepieceranges;
                logmsgs := logmsgs;
                error := error;
                progress := if bool_decide (s = DLSTATUS_WAITING4HASHCHECK)
                            then 0%float else frac st;
                status := status;
                stats := None;
                haveslice := None |}
      | None, None =>
          let self := copy_info_from_stats download filepieceranges logmsgs st in
          pieces_complete self (stats_stats st)
      end
  end.

(** ** Accessors *)

Definition get_download (self : DownloadState) : positive := download self.
Definition get_progress (self : DownloadState) : float := progress self.
Definition get_status (self : DownloadState) : option dlstatus := status self.
Definition get_error (self : DownloadState) : option string := error self.

Definition get_current_speed (self : DownloadState) (direct : direction) : float :=
  match stats self with
  | None => 0%float
  | Some st =>
      if bool_decide (direct = UPLOAD) then PrimFloat.div (up st) 1024%float
      else PrimFloat.div (down st) 1024%float
  end.

Definition has_active_connections (self : DownloadState) : bool :=
  match stats self with
  | None => false
  | Some st =>
      let statsobj := stats_stats st in
      bool_decide (numSeeds statsobj + numPeers statsobj > 0)
  end.

(** [i['completed'] == 1.0] *)
Definition is_seed (i : Peer) : bool := PrimFloat.eqb (completed i) 1%float.

Definition get_num_seeds_peers (self : DownloadState) : option Z * option Z :=
  match stats self with
  | None => (None, None)
  | Some st =>
      match spew st with
      | None => (None, None)
      | Some sp =>
          let total := Z.of_nat (length sp) in
          let seeds := Z.of_nat (length (List.filter is_seed sp)) in
          (Some seeds, Some (total - seeds))
      end
  end.

(** [self.haveslice] is read only where [self.stats] is set.  The
    constructor assigns the two together ([init_haveslice_assigned]), so the
    [[]] for an instance with [stats] set and [haveslice] unassigned is never
    the answer for a constructed snapshot. *)
Definition get_pieces_complete (self : DownloadState) : list bool :=
  match stats self with
  | None => []
  | Some _ => default [] (haveslice self)
  end.

Definition get_vod_prebuffering_progress (self : DownloadState) : float :=
  match stats self with
  | None => 0%float
  | Some st => vod_prebuf_frac st
  end.

Definition get_vod_playable (self : DownloadState) : bool :=
  match stats self with
  | None => false
  | Some st => vod_playable st
  end.

(** [float(2 ** 31)] *)
Definition float_2_31 : float := 2147483648%float.

Definition get_vod_playable_after (self : DownloadState) : float :=
  match stats self with
  | None => float_2_31
  | Some st => vod_playable_after st
  end.

Definition get_log_messages (self : DownloadState) : list (float * string) :=
  match logmsgs self with
  | None => []
  | Some l => l
  end.

(** ** Worked examples *)

Definition T : bool := true.
Definition F : bool := false.

Definition engine_stats (fr : float) (bitmap : list bool) : Stats :=
  {| frac := fr; up := 2048%float; down := 4096%float;
     stats_stats := {| have := bitmap; numSeeds := 0; numPeers := 0 |};
     spew := None;
     vod_prebuf_frac := 0%float; vod_playable := false;
     vod_playable_after := 30%float |}.

(** The bitmap of the spec's worked examples. *)
Definition bitmap5 : list bool := [T; T; T; F; T].

(** The snapshot of the spec's no-override example: ranges [[(0,5)]] over
    [bitmap5] at [frac = 0.5]. *)
Definition whole_file_snapshot : DownloadState :=
  set_haveslice
    (copy_info_from_stats 1 (Some [(0, 5, "video.avi")]) None (engine_stats 0.5 bitmap5))
    bitmap5.

(** The snapshot of the spec's full-completion example: ranges [[(0,3)]]
    over [bitmap5] at [frac = 0.5]. *)
Definition first_file_snapshot : DownloadState :=
  set_seeding
    (set_haveslice
       (copy_info_from_stats 1 (Some [(0, 3, "video.avi")]) None (engine_stats 0.5 bitmap5))
       [T; T; T]).

(** A bundle whose play-out estimate is [2 ** 32] seconds. *)
Definition slow_stats : Stats :=
  {| frac := 0.5%float; up := 0%float; down := 1%float;
     stats_stats := {| have := bitmap5; numSeeds := 0; numPeers := 1 |};
     spew := Some [];
     vod_prebuf_frac := 0%float; vod_playable := false;
     vod_playable_after := 4294967296%float |}.

(** The pieces the copy loop visits, in the order it visits them. *)
Definition pieces_of (ranges : list piecerange) : list Z :=
  concat (map (fun '(t, tl, f) => range t tl) ranges).

(** The projection in the spec's words: the slices [[t, tl)] of the bitmap,
    one per range, concatenated in range order. *)
Definition slices_concat (bitmap : list bool) (ranges : list piecerange) : list bool :=
  concat (map (fun '(t, tl, f) => slice bitmap t tl) ranges).

(** The sum over the ranges of [end - start], in the spec's words. *)
Definition sum_of_widths (ranges : list piecerange) : Z :=
  foldr (fun '(t, tl, f) acc => (tl - t) + acc) 0 ranges.

(** A range inside the bitmap: [0 <= t <= tl <= len(bitmap)]. *)
Definition range_ok (bitmap : list bool) (r : piecerange) : Prop :=
  let '(t, tl, f) := r in 0 ≤ t ∧ t ≤ tl ∧ tl ≤ Z.of_nat (length bitmap).

Definition ranges_ok (bitmap : list bool) (oranges : option (list piecerange)) : Prop :=
  match oranges with
  | None => True
  | Some ranges => Forall (range_ok bitmap) ranges
  end.

(** The projected completion sequence in the spec's words: the full
    bitmap when the ranges are absent, the concatenated slices otherwise. *)
Definition projected_completion (bitmap : list bool)
    (oranges : option (list piecerange)) : list bool :=
  match oranges with
  | None => bitmap
  | Some ranges => slices_concat bitmap ranges
  end.

(** Its length in the spec's words. *)
Definition projected_length (bitmap : list bool)
    (oranges : option (list piecerange)) : Z :=
  match oranges with
  | None => Z.of_nat (length bitmap)
  | Some ranges => sum_of_widths ranges
  end.

(** ** The copy loop *)

Lemma exc_unique (e : exc) : e = IndexError.
Proof. by destruct e. Qed.

Lemma for_in_app {A S} (l1 l2 : list A) (body : S → A → result S) (s : S) :
  for_in (l1 ++ l2) body s = s' ← for_in l1 body s; for_in l2 body s'.
Proof.
  revert s. induction l1 as [|x l1 IH]; intros s; simpl; [done|].
  destruct (body s x) as [s'|e]; simpl; [apply IH | done].
Qed.

Lemma copy_ranges_flat statsobj ranges st :
  for_in ranges (copy_range statsobj) st
  = for_in (pieces_of ranges) (copy_piece statsobj) st.
Proof.
  revert st. induction ranges as [|[[t tl] f] ranges IH]; intros st; [done|].
  unfold pieces_of. simpl. rewrite for_in_app.
  destruct (for_in (range t tl) (copy_piece statsobj) st) as [st'|e]; simpl; [apply IH | done].
Qed.

Lemma getitem_nat {A} (l : list A) (i : nat) :
  getitem l (Z.of_nat i) = match l !! i with Some x => Ok x | None => Raise IndexError end.
Proof.
  unfold getitem, norm_index.
  destruct (Z.ltb_spec (Z.of_nat i) 0) as [?|_]; [lia|].
  destruct (Z.ltb_spec (Z.of_nat i) 0) as [?|_]; [lia|]. simpl.
  destruct (Z.leb_spec (Z.of_nat (length l)) (Z.of_nat i)) as [Hge|Hlt].
  - rewrite lookup_ge_None_2; [done | lia].
  - by rewrite Nat2Z.id.
Qed.

Lemma setitem_nat {A} (l : list A) (i : nat) (x : A) :
  setitem l (Z.of_nat i) x
  = if decide (i < length l)%nat then Ok (<[i := x]> l) else Raise IndexError.
Proof.
  unfold setitem, norm_index.
  destruct (Z.ltb_spec (Z.of_nat i) 0) as [?|_]; [lia|].
  destruct (Z.ltb_spec (Z.of_nat i) 0) as [?|_]; [lia|]. simpl.
  destruct (Z.leb_spec (Z.of_nat (length l)) (Z.of_nat i)) as [Hge|Hlt];
    case_decide; try lia; [done|].
  by rewrite Nat2Z.id.
Qed.

(** One run of the inner loop over any list of pieces: it succeeds exactly
    when every subscript of the bitmap is in range and the copied flags fit
    in what is left of [haveslice]; it then has overwritten the next
    [length vs] slots and folded the flags into [haveall]. *)
Lemma copy_pieces_spec statsobj ps : ∀ (done rest : list bool) (haveall : bool),
  for_in ps (copy_piece statsobj) (done ++ rest, haveall, Z.of_nat (length done))
  = match comprehension (getitem (have statsobj)) ps with
    | Ok vs =>
        if decide (length vs ≤ length rest)%nat
        then Ok (done ++ vs ++ drop (length vs) rest,
                 haveall && forallb id vs,
                 Z.of_nat (length done + length vs))
        else Raise IndexError
    | Raise _ => Raise IndexError
    end.
Proof.
  induction ps as [|p ps IH]; intros done rest haveall; simpl.
  - by rewrite drop_0, Nat.add_0_r, andb_true_r.
  - destruct (getitem (have statsobj) p) as [v|e]; simpl; [|by destruct e].
    rewrite setitem_nat, length_app.
    destruct rest as [|r rest].
    + rewrite decide_False by (simpl; lia). simpl.
      destruct (comprehension _ ps) as [vs|e]; simpl; done.
    + rewrite decide_True by (simpl; lia). simpl.
      rewrite insert_app_r_alt by lia. rewrite Nat.sub_diag. simpl.
      rewrite getitem_nat.
      rewrite lookup_app_r by lia. rewrite Nat.sub_diag. simpl.
      replace (Z.of_nat (length done) + 1) with (Z.of_nat (length (done ++ [v])))
        by (rewrite length_app; simpl; lia).
      replace (done ++ v :: rest) with ((done ++ [v]) ++ rest) by by rewrite <- app_assoc.
      rewrite IH.
      destruct (comprehension _ ps) as [vs|e]; simpl; [|done].
      destruct (decide (length vs ≤ length rest)%nat);
        [rewrite decide_True by lia | by rewrite decide_False by lia].
      rewrite <- app_assoc. simpl. rewrite length_app. simpl.
      do 3 f_equal; [|lia].
      destruct haveall, v; simpl; try done.
Qed.

Lemma comprehension_length {A B} (f : A → result B) (l : list A) (ys : list B) :
  comprehension f l = Ok ys → length ys = length l.
Proof.
  revert ys. induction l as [|x l IH]; intros ys; simpl.
  - by intros [= <-].
  - destruct (f x) as [y|e]; simpl; [|done].
    destruct (comprehension f l) as [ys'|e]; simpl; [|done].
    intros [= <-]. simpl. f_equal. by apply IH.
Qed.

Lemma comprehension_app {A B} (f : A → result B) (l1 l2 : list A) :
  comprehension f (l1 ++ l2)
  = xs ← comprehension f l1; ys ← comprehension f l2; Ok (xs ++ ys).
Proof.
  induction l1 as [|x l1 IH]; simpl.
  - by destruct (comprehension f l2).
  - destruct (f x) as [y|e]; simpl; [|done]. rewrite IH.
    destruct (comprehension f l1) as [xs|e]; simpl; [|done].
    by destruct (comprehension f l2).
Qed.


Lemma count_pieces_from (ranges : list piecerange) (acc : Z) :
  foldl (fun totalpieces '(t, tl, f) => let diff := tl - t in totalpieces + diff) acc ranges
  = acc + sum_of_widths ranges.
Proof.
  revert acc. induction ranges as [|[[t tl] f] ranges IH]; intros acc; simpl; [lia|].
  rewrite IH. lia.
Qed.

Lemma count_pieces_sum (ranges : list piecerange) :
  count_pieces ranges = sum_of_widths ranges.
Proof. unfold count_pieces. by rewrite count_pieces_from. Qed.

Lemma length_range (a b : Z) : length (range a b) = Z.to_nat (b - a).
Proof. unfold range. apply length_seqZ. Qed.

(** The loop visits at least as many pieces as [totalpieces] counts: a
    range with [tl < t] lowers the count and is visited zero times. *)
Lemma pieces_of_count (ranges : list piecerange) :
  (Z.to_nat (count_pieces ranges) ≤ length (pieces_of ranges))%nat.
Proof.
  rewrite count_pieces_sum. unfold pieces_of.
  induction ranges as [|[[t tl] f] ranges IH]; simpl; [lia|].
  rewrite length_app, length_range. lia.
Qed.

Lemma pieces_of_count_ok (bitmap : list bool) (ranges : list piecerange) :
  Forall (range_ok bitmap) ranges →
  length (pieces_of ranges) = Z.to_nat (count_pieces ranges)
  ∧ 0 ≤ count_pieces ranges.
Proof.
  rewrite count_pieces_sum. unfold pieces_of.
  induction 1 as [|[[t tl] f] ranges (Ht & Htl & Hlen) _ [IH1 IH2]]; simpl; [done|].
  rewrite length_app, length_range, IH1. lia.
Qed.

(** The whole of lines 94-102 from the initial loop state. *)
Lemma copy_loop_spec (statsobj : StatsObj) (ranges : list piecerange) :
  for_in ranges (copy_range statsobj) (repeat false (count_pieces ranges), true, 0)
  = match comprehension (getitem (have statsobj)) (pieces_of ranges) with
    | Ok vs =>
        if decide (length vs ≤ Z.to_nat (count_pieces ranges))%nat
        then Ok (vs, forallb id vs, Z.of_nat (length vs))
        else Raise IndexError
    | Raise _ => Raise IndexError
    end.
Proof.
  rewrite copy_ranges_flat.
  pose proof (copy_pieces_spec statsobj (pieces_of ranges) []
                (repeat false (count_pieces ranges)) true) as H.
  cbn [app length Nat.add andb] in H. change (Z.of_nat 0) with 0 in H.
  rewrite H. clear H.
  destruct (comprehension _ _) as [vs|e] eqn:Hvs; [|done].
  apply comprehension_length in Hvs.
  pose proof (pieces_of_count ranges) as Hcnt.
  unfold repeat. rewrite length_replicate.
  case_decide; [|done].
  rewrite drop_ge by (rewrite length_replicate; lia).
  by rewrite app_nil_r.
Qed.

(** Lines 81-107 with a range list present. *)
Lemma pieces_complete_ranges (self : DownloadState) (statsobj : StatsObj)
    (ranges : list piecerange) :
  filepieceranges self = Some ranges →
  pieces_complete self statsobj
  = match comprehension (getitem (have statsobj)) (pieces_of ranges) with
    | Ok vs =>
        if decide (length vs ≤ Z.to_nat (count_pieces ranges))%nat
        then Ok (if forallb id vs
                 then set_seeding (set_haveslice self vs)
                 else set_haveslice self vs)
        else Raise IndexError
    | Raise _ => Raise IndexError
    end.
Proof.
  intros Hr. unfold pieces_complete. rewrite Hr. rewrite copy_loop_spec.
  destruct (comprehension _ _) as [vs|e]; [|by destruct e].
  case_decide; simpl; [|done].
  by destruct (forallb id vs).
Qed.

Lemma pieces_complete_none (self : DownloadState) (statsobj : StatsObj) :
  filepieceranges self = None →
  pieces_complete self statsobj = Ok (set_haveslice self (have statsobj)).
Proof. intros Hr. unfold pieces_complete. by rewrite Hr. Qed.

(** ** Ranges inside the bitmap *)

Lemma comprehension_seq {A} (l : list A) (n : nat) : ∀ i : nat,
  (i + n ≤ length l)%nat →
  comprehension (getitem l) (Z.of_nat <$> seq i n) = Ok (take n (drop i l)).
Proof.
  induction n as [|n IH]; intros i Hlen; simpl; [done|].
  rewrite getitem_nat.
  destruct (l !! i) as [x|] eqn:Hx; [|apply lookup_ge_None in Hx; lia].
  simpl. rewrite IH by lia. simpl.
  by rewrite (drop_S l x i Hx).
Qed.

Lemma range_nat (a b : Z) :
  0 ≤ a → range a b = Z.of_nat <$> seq (Z.to_nat a) (Z.to_nat (b - a)).
Proof.
  intros Ha. unfold range, seqZ.
  rewrite <- (Nat.add_0_l (Z.to_nat a)) at 1.
  generalize (Z.to_nat (b - a)) as n. generalize 0%nat as k.
  intros k n. revert k. induction n as [|n IH]; intros k; simpl; [done|].
  f_equal; [lia|]. apply (IH (S k)).
Qed.

Lemma comprehension_range (bitmap : list bool) (t tl : Z) :
  0 ≤ t → t ≤ tl → tl ≤ Z.of_nat (length bitmap) →
  comprehension (getitem bitmap) (range t tl) = Ok (slice bitmap t tl).
Proof.
  intros Ht Htl Hlen. rewrite range_nat by done.
  rewrite comprehension_seq by lia.
  unfold slice, clamp_index.
  destruct (Z.ltb_spec t 0); [lia|]. destruct (Z.ltb_spec tl 0); [lia|].
  by rewrite !Z.min_l by lia.
Qed.

Lemma comprehension_ranges_ok (bitmap : list bool) (ranges : list piecerange) :
  Forall (range_ok bitmap) ranges →
  comprehension (getitem bitmap) (pieces_of ranges) = Ok (slices_concat bitmap ranges).
Proof.
  unfold pieces_of, slices_concat.
  induction 1 as [|[[t tl] f] ranges (Ht & Htl & Hlen) _ IH]; simpl; [done|].
  rewrite comprehension_app, comprehension_range, IH by done. done.
Qed.

Lemma elem_of_pieces_of (ranges : list piecerange) (t tl : Z) (f : string) (p : Z) :
  (t, tl, f) ∈ ranges → t ≤ p < tl → p ∈ pieces_of ranges.
Proof.
  intros Hin Hp. unfold pieces_of.
  induction ranges as [|[[t' tl'] f'] ranges IH]; [by apply elem_of_nil in Hin|].
  simpl. apply elem_of_app.
  apply elem_of_cons in Hin as [[= <- <- <-]|Hin]; [left|right; by apply IH].
  unfold range. apply elem_of_seqZ. lia.
Qed.


(** ** The constructor on a pure statistics tick *)

Lemma init_stats_ranges (download : positive) (progress : float) (st : Stats)
    (ranges : list piecerange) (logmsgs : option (list (float * string))) :
  __init__ download None None progress (Some st) (Some ranges) logmsgs
  = let self := copy_info_from_stats download (Some ranges) logmsgs st in
    match comprehension (getitem (have (stats_stats st))) (pieces_of ranges) with
    | Ok vs =>
        if decide (length vs ≤ Z.to_nat (count_pieces ranges))%nat
        then Ok (if forallb id vs
                 then set_seeding (set_haveslice self vs)
                 else set_haveslice self vs)
        else Raise IndexError
    | Raise _ => Raise IndexError
    end.
Proof. unfold __init__. by rewrite (pieces_complete_ranges _ _ ranges). Qed.

Lemma init_stats_ranges_inv (download : positive) (progress : float) (st : Stats)
    (ranges : list piecerange) (logmsgs : option (list (float * string)))
    (s : DownloadState) :
  __init__ download None None progress (Some st) (Some ranges) logmsgs = Ok s →
  ∃ vs : list bool,
    comprehension (getitem (have (stats_stats st))) (pieces_of ranges) = Ok vs
    ∧ length vs = Z.to_nat (count_pieces ranges)
    ∧ get_pieces_complete s = vs
    ∧ s = let self := copy_info_from_stats download (Some ranges) logmsgs st in
          if forallb id vs then set_seeding (set_haveslice self vs)
          else set_haveslice self vs.
Proof.
  rewrite init_stats_ranges. cbv zeta.
  destruct (comprehension _ _) as [vs|e] eqn:Hvs; [|done].
  case_decide as Hle; [|done]. intros [= <-].
  exists vs. split; [done|]. split.
  - apply comprehension_length in Hvs. pose proof (pieces_of_count ranges). lia.
  - by destruct (forallb id vs).
Qed.

Lemma init_haveslice_assigned (download : positive) (status : option dlstatus)
    (error : option string) (progress : float) (stats0 : option Stats)
    (filepieceranges : option (list piecerange))
    (logmsgs : option (list (float * string))) (s : DownloadState) :
  __init__ download status error progress stats0 filepieceranges logmsgs = Ok s →
  is_Some (stats s) → is_Some (haveslice s).
Proof.
  destruct stats0 as [st|]; [|by intros [= <-] [? [=]]].
  destruct error as [e|]; [by intros [= <-] [? [=]]|].
  destruct status as [o|]; [by intros [= <-] [? [=]]|].
  destruct filepieceranges as [ranges|].
  - intros (vs & _ & _ & _ & ->)%init_stats_ranges_inv _.
    cbv zeta. by destruct (forallb id vs).
  - by intros [= <-] _.
Qed.

Lemma init_stats_ranges_ok (download : positive) (progress : float) (st : Stats)
    (ranges : list piecerange) (logmsgs : option (list (float * string))) :
  Forall (range_ok (have (stats_stats st))) ranges →
  ∃ s : DownloadState,
    __init__ download None None progress (Some st) (Some ranges) logmsgs = Ok s
    ∧ get_pieces_complete s = slices_concat (have (stats_stats st)) ranges.
Proof.
  intros Hok. rewrite init_stats_ranges. cbv zeta.
  rewrite (comprehension_ranges_ok _ _ Hok).
  pose proof (comprehension_length _ _ _ (comprehension_ranges_ok _ _ Hok)) as Hlen.
  destruct (pieces_of_count_ok _ _ Hok) as [Hcnt _].
  rewrite decide_True by lia.
  eexists. split; [done|]. by destruct (forallb id _).
Qed.

Lemma forallb_id_true (vs : list bool) :
  forallb id vs = true ↔ Forall (fun b => b = true) vs.
Proof.
  induction vs as [|v vs IH]; simpl; [by split; [constructor|]|].
  destruct v; simpl.
  - split.
    + intros H. constructor; [done | by apply IH].
    + intros H. apply IH. by inversion H.
  - split; [done | by inversion 1].
Qed.

(** ** Floats *)

Lemma float_ltb_not_eqb (x y : float) :
  PrimFloat.ltb x y = true → PrimFloat.eqb x y = false.
Proof.
  rewrite FloatAxioms.ltb_spec, FloatAxioms.eqb_spec. unfold SpecFloat.SFltb, SpecFloat.SFeqb.
  by destruct (SpecFloat.SFcompare _ _) as [[]|].
Qed.

Lemma float_neq (x y : float) : PrimFloat.eqb x y = false → PrimFloat.eqb x x = true → x ≠ y.
Proof. intros Hxy Hxx ->. congruence. Qed.

(** ** Status derivation *)

(** C1, as the code has it: an error value always gives status
    STOPPED_ON_ERROR and is stored verbatim; the progress is 0.0 when a
    statistics bundle came with the error, and the caller's progress when
    none did. *)
Theorem error_forces_stopped_on_error (download : positive) (status : option dlstatus)
    (e : string) (progress : float) (stats : option Stats)
    (filepieceranges : option (list piecerange))
    (logmsgs : option (list (float * string))) :
  ∃ s : DownloadState,
    __init__ download status (Some e) progress stats filepieceranges logmsgs = Ok s
    ∧ get_status s = Some DLSTATUS_STOPPED_ON_ERROR
    ∧ get_error s = Some e
    ∧ get_progress s = match stats with Some _ => 0%float | None => progress end.
Proof. destruct stats as [st|]; simpl; eexists; (split; [done|]); done. Qed.

(** C1 fails as stated: an error without statistics and a caller progress
    of 0.5 gives a snapshot whose progress is 0.5, not 0.0. *)
Lemma error_without_stats_keeps_progress :
  ∃ s : DownloadState,
    __init__ 1 None (Some "tracker timeout") 0.5%float None None None = Ok s
    ∧ get_status s = Some DLSTATUS_STOPPED_ON_ERROR
    ∧ get_progress s = 0.5%float
    ∧ get_progress s ≠ 0%float.
Proof.
  eexists. split; [done|]. split; [done|]. split; [done|].
  simpl. by apply float_neq.
Qed.

(** C6, as the code has it: with no error and an explicit status, the
    snapshot has that status; without statistics the caller's progress
    stands, for WAITING4HASHCHECK as for any other status; with statistics
    the progress is 0.0 for WAITING4HASHCHECK and the bundle's [frac] for
    every other status. *)
Theorem status_override (download : positive) (o : dlstatus) (progress : float)
    (stats : option Stats) (filepieceranges : option (list piecerange))
    (logmsgs : option (list (float * string))) :
  ∃ s : DownloadState,
    __init__ download (Some o) None progress stats filepieceranges logmsgs = Ok s
    ∧ get_status s = Some o
    ∧ get_error s = None
    ∧ (stats = None → get_progress s = progress)
    ∧ (∀ st, stats = Some st → o = DLSTATUS_WAITING4HASHCHECK → get_progress s = 0%float)
    ∧ (∀ st, stats = Some st → o ≠ DLSTATUS_WAITING4HASHCHECK → get_progress s = frac st).
Proof.
  destruct stats as [st|]; simpl; eexists; (split; [done|]); simpl;
    repeat split; try done.
  - intros st' [= <-] ->. done.
  - intros st' [= <-] Hne. by rewrite bool_decide_false.
Qed.

(** C6 fails as stated: WAITING4HASHCHECK without statistics and a caller
    progress of 0.5 gives a snapshot whose progress is 0.5, not 0.0. *)
Lemma waiting_without_stats_keeps_progress :
  ∃ s : DownloadState,
    __init__ 1 (Some DLSTATUS_WAITING4HASHCHECK) None 0.5%float None None None = Ok s
    ∧ get_status s = Some DLSTATUS_WAITING4HASHCHECK
    ∧ get_progress s = 0.5%float
    ∧ get_progress s ≠ 0%float.
Proof.
  eexists. split; [done|]. split; [done|]. split; [done|].
  simpl. by apply float_neq.
Qed.

(** C5: on a pure statistics tick (statistics, no error, no status) whose
    full-completion override does not apply (ranges absent, or some
    projected piece missing), the progress is [frac] and the status is
    SEEDING when [frac == 1.0] and DOWNLOADING when [0.0 <= frac < 1.0]. *)
Theorem stats_tick_status_progress (download : positive) (progress : float)
    (st : Stats) (filepieceranges : option (list piecerange))
    (logmsgs : option (list (float * string))) (s : DownloadState) :
  __init__ download None None progress (Some st) filepieceranges logmsgs = Ok s →
  filepieceranges = None ∨ false ∈ get_pieces_complete s →
  get_progress s = frac st
  ∧ (PrimFloat.eqb (frac st) 1%float = true → get_status s = Some DLSTATUS_SEEDING)
  ∧ (PrimFloat.leb 0%float (frac st) = true → PrimFloat.ltb (frac st) 1%float = true →
     get_status s = Some DLSTATUS_DOWNLOADING).
Proof.
  intros Hinit Hno.
  assert (get_progress s = frac st
          ∧ get_status s = if PrimFloat.eqb (frac st) 1%float
                           then Some DLSTATUS_SEEDING else Some DLSTATUS_DOWNLOADING)
    as [Hp Hs].
  { destruct filepieceranges as [ranges|].
    - destruct Hno as [?|Hin]; [done|].
      apply init_stats_ranges_inv in Hinit as (vs & _ & _ & Hvs & ->).
      cbv zeta in *.
      destruct (forallb id vs) eqn:Hall; [|done].
      apply forallb_id_true in Hall. rewrite Hvs in Hin.
      by apply (proj1 (Forall_forall _ _) Hall) in Hin.
    - by injection Hinit as <-. }
  rewrite Hp, Hs. split; [done|]. split.
  - by intros ->.
  - intros _ Hlt. by rewrite (float_ltb_not_eqb _ _ Hlt).
Qed.

(** The spec's no-override example: [bitmap5], ranges [[(0,5)]], frac 0.5. *)
Lemma stats_tick_status_progress_witness :
  __init__ 1 None None 0%float (Some (engine_stats 0.5 bitmap5))
    (Some [(0, 5, "video.avi")]) None = Ok whole_file_snapshot
  ∧ (Some [(0, 5, "video.avi")] = None ∨ false ∈ get_pieces_complete whole_file_snapshot)
  ∧ get_progress whole_file_snapshot = frac (engine_stats 0.5 bitmap5)
  ∧ (PrimFloat.eqb (frac (engine_stats 0.5 bitmap5)) 1%float = true →
     get_status whole_file_snapshot = Some DLSTATUS_SEEDING)
  ∧ (PrimFloat.leb 0%float (frac (engine_stats 0.5 bitmap5)) = true →
     PrimFloat.ltb (frac (engine_stats 0.5 bitmap5)) 1%float = true →
     get_status whole_file_snapshot = Some DLSTATUS_DOWNLOADING).
Proof.
  assert (false ∈ get_pieces_complete whole_file_snapshot) as Hin
    by (do 3 apply list_elem_of_further; apply list_elem_of_here).
  split; [reflexivity|]. split; [by right|].
  apply (stats_tick_status_progress 1 0%float (engine_stats 0.5 bitmap5)
           (Some [(0, 5, "video.avi")]) None whole_file_snapshot);
    [reflexivity | by right].
Defined.

(** ** Piece-range projection *)

(** C2, as the code has it: on a pure statistics tick with a range list
    present, if every projected piece is complete the status is SEEDING and
    the progress 1.0, whatever [frac] says.  With the ranges absent the
    override is not computed. *)
Theorem full_completion_override (download : positive) (progress : float)
    (st : Stats) (ranges : list piecerange)
    (logmsgs : option (list (float * string))) (s : DownloadState) :
  __init__ download None None progress (Some st) (Some ranges) logmsgs = Ok s →
  Forall (fun b => b = true) (get_pieces_complete s) →
  get_status s = Some DLSTATUS_SEEDING ∧ get_progress s = 1%float.
Proof.
  intros Hinit Hall.
  apply init_stats_ranges_inv in Hinit as (vs & _ & _ & Hvs & ->).
  cbv zeta in *. rewrite Hvs in Hall. apply forallb_id_true in Hall.
  by rewrite Hall.
Qed.

(** The spec's full-completion example: [bitmap5], ranges [[(0,3)]]. *)
Lemma full_completion_override_witness :
  __init__ 1 None None 0%float (Some (engine_stats 0.5 bitmap5))
    (Some [(0, 3, "video.avi")]) None = Ok first_file_snapshot
  ∧ Forall (fun b => b = true) (get_pieces_complete first_file_snapshot)
  ∧ get_status first_file_snapshot = Some DLSTATUS_SEEDING
  ∧ get_progress first_file_snapshot = 1%float.
Proof.
  assert (Forall (fun b => b = true) (get_pieces_complete first_file_snapshot)) as Hall
    by (repeat constructor).
  split; [reflexivity|]. split; [exact Hall|].
  apply (full_completion_override 1 0%float (engine_stats 0.5 bitmap5)
           [(0, 3, "video.avi")] None first_file_snapshot); [reflexivity | exact Hall].
Defined.

(** C2 fails as stated when the ranges are absent: a bitmap with every
    piece complete and [frac = 0.5] gives DOWNLOADING at progress 0.5. *)
Lemma no_override_without_ranges :
  ∃ s : DownloadState,
    __init__ 1 None None 0%float (Some (engine_stats 0.5 [T; T])) None None = Ok s
    ∧ get_pieces_complete s = [true; true]
    ∧ get_status s = Some DLSTATUS_DOWNLOADING
    ∧ get_progress s = 0.5%float
    ∧ get_status s ≠ Some DLSTATUS_SEEDING.
Proof. eexists. repeat split; done. Qed.

(** C3, as the code has it: for ranges inside the bitmap
    ([0 <= start <= end <= len(bitmap)]) construction succeeds and the
    projected sequence is the concatenation, in range order, of the bitmap
    slices; with the ranges absent it is the bitmap itself. *)
Theorem projection_is_slices (download : positive) (progress : float)
    (st : Stats) (filepieceranges : option (list piecerange))
    (logmsgs : option (list (float * string))) :
  ranges_ok (have (stats_stats st)) filepieceranges →
  ∃ s : DownloadState,
    __init__ download None None progress (Some st) filepieceranges logmsgs = Ok s
    ∧ get_pieces_complete s = projected_completion (have (stats_stats st)) filepieceranges.
Proof.
  destruct filepieceranges as [ranges|]; intros Hok.
  - exact (init_stats_ranges_ok download progress st ranges logmsgs Hok).
  - eexists. split; done.
Qed.

(** Two ranges out of order over [bitmap5]. *)
Lemma projection_is_slices_witness :
  ranges_ok bitmap5 (Some [(3, 5, "b.avi"); (0, 2, "a.avi")])
  ∧ ∃ s : DownloadState,
      __init__ 1 None None 0%float (Some (engine_stats 0.5 bitmap5))
        (Some [(3, 5, "b.avi"); (0, 2, "a.avi")]) None = Ok s
      ∧ get_pieces_complete s
        = projected_completion bitmap5 (Some [(3, 5, "b.avi"); (0, 2, "a.avi")]).
Proof.
  assert (ranges_ok bitmap5 (Some [(3, 5, "b.avi"); (0, 2, "a.avi")])) as Hok
    by (repeat constructor; simpl; lia).
  split; [exact Hok|].
  exact (projection_is_slices 1 0%float (engine_stats 0.5 bitmap5)
           (Some [(3, 5, "b.avi"); (0, 2, "a.avi")]) None Hok).
Defined.

(** C3 fails as stated for a range that leaves the bitmap: over the five
    pieces of [bitmap5] the range [(0,6)] raises IndexError, so there is no
    projected sequence, while the slice [[0:6]] is the five flags. *)
Lemma projection_past_end_raises :
  __init__ 1 None None 0%float (Some (engine_stats 0.5 bitmap5))
    (Some [(0, 6, "video.avi")]) None = Raise IndexError
  ∧ slices_concat bitmap5 [(0, 6, "video.avi")] = bitmap5.
Proof. split; reflexivity. Qed.

(** C4, as the code has it: on a constructed pure statistics tick the
    projected sequence has [max(0, sum of (end - start))] entries when the
    ranges are present, and the bitmap's length when they are absent; for
    ranges [[(0,5),(10,12)]] that is 7. *)
Theorem projection_length (download : positive) (progress : float)
    (st : Stats) (filepieceranges : option (list piecerange))
    (logmsgs : option (list (float * string))) (s : DownloadState) :
  __init__ download None None progress (Some st) filepieceranges logmsgs = Ok s →
  Z.of_nat (length (get_pieces_complete s))
  = match filepieceranges with
    | None => Z.of_nat (length (have (stats_stats st)))
    | Some ranges => Z.max 0 (sum_of_widths ranges)
    end
  ∧ (∀ f1 f2 : string, filepieceranges = Some [(0, 5, f1); (10, 12, f2)] →
     length (get_pieces_complete s) = 7%nat).
Proof.
  intros Hinit.
  assert (Z.of_nat (length (get_pieces_complete s))
          = match filepieceranges with
            | None => Z.of_nat (length (have (stats_stats st)))
            | Some ranges => Z.max 0 (sum_of_widths ranges)
            end) as Hlen.
  { destruct filepieceranges as [ranges|].
    - apply init_stats_ranges_inv in Hinit as (vs & _ & Hlen & -> & _).
      rewrite Hlen, count_pieces_sum. lia.
    - by injection Hinit as <-. }
  split; [exact Hlen|].
  intros f1 f2 ->. simpl in Hlen. lia.
Qed.

(** The spec's length example over a bitmap of fifteen pieces. *)
Lemma projection_length_witness :
  ∃ s : DownloadState,
    __init__ 1 None None 0%float (Some (engine_stats 0.5 (bitmap5 ++ bitmap5 ++ bitmap5)))
      (Some [(0, 5, "a.avi"); (10, 12, "b.avi")]) None = Ok s
    ∧ length (get_pieces_complete s) = 7%nat.
Proof.
  eexists. split; [reflexivity|].
  eapply (projection_length 1 0%float (engine_stats 0.5 (bitmap5 ++ bitmap5 ++ bitmap5))
            (Some [(0, 5, "a.avi"); (10, 12, "b.avi")]) None); reflexivity.
Defined.

(** C4 fails as stated for a range with [start > end]: ranges [[(3,1)]]
    construct a snapshot whose projected sequence has 0 entries, while the
    sum of the widths is -2. *)
Lemma projection_length_negative_width :
  ∃ s : DownloadState,
    __init__ 1 None None 0%float (Some (engine_stats 0.5 bitmap5))
      (Some [(3, 1, "video.avi")]) None = Ok s
    ∧ Z.of_nat (length (get_pieces_complete s)) = 0
    ∧ projected_length bitmap5 (Some [(3, 1, "video.avi")]) = -2.
Proof. eexists. repeat split; reflexivity. Qed.




(** C10: on a pure statistics tick with a present but empty range list the
    projected sequence is empty, the status SEEDING and the progress 1.0,
    whatever [frac] and the bitmap are. *)
Theorem empty_ranges_seeding (download : positive) (progress : float)
    (st : Stats) (logmsgs : option (list (float * string))) :
  ∃ s : DownloadState,
    __init__ download None None progress (Some st) (Some []) logmsgs = Ok s
    ∧ get_pieces_complete s = []
    ∧ get_status s = Some DLSTATUS_SEEDING
    ∧ get_progress s = 1%float.
Proof. eexists. repeat split; reflexivity. Qed.

(** ** Accessors *)

Lemma filter_split_length {A} (p : A → bool) (l : list A) :
  Z.of_nat (length l) - Z.of_nat (length (List.filter p l))
  = Z.of_nat (length (List.filter (fun x => negb (p x)) l)).
Proof.
  induction l as [|x l IH]; simpl; [done|].
  destruct (p x); simpl; lia.
Qed.

(** C8: [get_num_seeds_peers] answers [(None, None)] exactly when the
    snapshot has no statistics or the bundle's peer list is withheld; with
    a peer list it answers the number of records whose [completed] equals
    1.0 and the number of the records whose [completed] does not, so
    [(0, 0)] for an empty list and [(1, 2)] for peers at 0.25, 1.0 and
    0.75. *)
Theorem num_seeds_peers_unknown_or_counts (s : DownloadState) :
  (get_num_seeds_peers s = (None, None)
   ↔ stats s = None ∨ ∃ st, stats s = Some st ∧ spew st = None)
  ∧ (∀ st sp, stats s = Some st → spew st = Some sp →
     get_num_seeds_peers s
     = (Some (Z.of_nat (length
                (List.filter (fun i => PrimFloat.eqb (completed i) 1%float) sp))),
        Some (Z.of_nat (length
                (List.filter (fun i => negb (PrimFloat.eqb (completed i) 1%float)) sp)))))
  ∧ (∀ st, stats s = Some st → spew st = Some [] →
     get_num_seeds_peers s = (Some 0, Some 0))
  ∧ (∀ st, stats s = Some st →
     spew st = Some [ {| completed := 0.25%float |};
                      {| completed := 1%float |};
                      {| completed := 0.75%float |} ] →
     get_num_seeds_peers s = (Some 1, Some 2)).
Proof.
  unfold get_num_seeds_peers. split; [|split; [|split]].
  - destruct (stats s) as [st|]; [|by split; [left|]].
    destruct (spew st) as [sp|] eqn:Hsp.
    + split; [done|]. intros [?|(st' & [= <-] & ?)]; congruence.
    + split; [|done]. intros _. right. by exists st.
  - intros st sp -> ->. by rewrite filter_split_length.
  - by intros st -> ->.
  - by intros st -> ->.
Qed.

(** C9, as the code has it: a snapshot constructed without a statistics
    bundle answers [float(2 ** 31)], 2147483648.0 seconds, which is above
    0.0; a snapshot that holds statistics answers the bundle's
    [vod_playable_after] unchanged. *)
Theorem vod_playable_after_sentinel_or_field :
  (∀ download status error progress filepieceranges logmsgs, ∃ s : DownloadState,
     __init__ download status error progress None filepieceranges logmsgs = Ok s
     ∧ get_vod_playable_after s = 2147483648%float)
  ∧ PrimFloat.ltb 0%float 2147483648%float = true
  ∧ (∀ s st, stats s = Some st → get_vod_playable_after s = vod_playable_after st).
Proof.
  split; [|split].
  - intros. eexists. split; reflexivity.
  - reflexivity.
  - intros s st Hst. unfold get_vod_playable_after. by rewrite Hst.
Qed.

(** C9 fails as stated: the answer without statistics is 2 ** 31, which is
    neither the largest float nor above every estimate; the bundle
    [slow_stats] gives a snapshot whose estimate, 2 ** 32 seconds, is not
    below it. *)
Lemma vod_playable_after_not_maximal :
  ∃ a b : DownloadState,
    __init__ 1 (Some DLSTATUS_STOPPED) None 0%float None None None = Ok a
    ∧ __init__ 1 None None 0%float (Some slow_stats) None None = Ok b
    ∧ get_vod_playable_after a = 2147483648%float
    ∧ get_vod_playable_after b = 4294967296%float
    ∧ PrimFloat.ltb (get_vod_playable_after b) (get_vod_playable_after a) = false
    ∧ PrimFloat.ltb (get_vod_playable_after a) (get_vod_playable_after b) = true.
Proof. do 2 eexists. repeat split; reflexivity. Qed.

(** ** More of the constructor and the accessors *)

Lemma init_stats_tick_inv (d : positive) (p : float) (st : Stats)
    (oranges : option (list piecerange))
    (logs : option (list (float * string))) (s : DownloadState) :
  __init__ d None None p (Some st) oranges logs = Ok s →
  stats s = Some st
  ∧ download s = d
  ∧ logmsgs s = logs
  ∧ filepieceranges s = oranges
  ∧ error s = None.
Proof.
  destruct oranges as [ranges|].
  - intros (vs & _ & _ & _ & ->)%init_stats_ranges_inv.
    cbv zeta. by destruct (forallb id vs).
  - by intros [= <-].
Qed.

(** X1: a snapshot built from an error or an explicit status drops the
    statistics bundle that came with it, so every statistics accessor
    answers its no-data value: speed 0.0 both ways, no active connections,
    unknown seed and peer counts, no pieces, no prebuffering, not playable,
    play-out after [2 ** 31] seconds. *)
Theorem override_or_error_discards_stats (download : positive)
    (status : option dlstatus) (error : option string) (progress : float)
    (st : Stats) (filepieceranges : option (list piecerange))
    (logmsgs : option (list (float * string))) :
  is_Some error ∨ is_Some status →
  ∃ s : DownloadState,
    __init__ download status error progress (Some st) filepieceranges logmsgs = Ok s
    ∧ get_current_speed s UPLOAD = 0%float
    ∧ get_current_speed s DOWNLOAD = 0%float
    ∧ has_active_connections s = false
    ∧ get_num_seeds_peers s = (None, None)
    ∧ get_pieces_complete s = []
    ∧ get_vod_prebuffering_progress s = 0%float
    ∧ get_vod_playable s = false
    ∧ get_vod_playable_after s = 2147483648%float.
Proof.
  intros Hsome. destruct error as [e|].
  - eexists. split; [reflexivity|]. repeat split.
  - destruct status as [o|].
    + eexists. split; [reflexivity|]. repeat split.
    + destruct Hsome as [[? [=]]|[? [=]]].
Qed.

(** A hash-checking report that carries a bundle with two connected
    peers. *)
Lemma override_or_error_discards_stats_witness :
  (is_Some (None : option string) ∨ is_Some (Some DLSTATUS_HASHCHECKING))
  ∧ ∃ s : DownloadState,
      __init__ 1 (Some DLSTATUS_HASHCHECKING) None 0%float (Some slow_stats) None None = Ok s
      ∧ get_current_speed s UPLOAD = 0%float
      ∧ get_current_speed s DOWNLOAD = 0%float
      ∧ has_active_connections s = false
      ∧ get_num_seeds_peers s = (None, None)
      ∧ get_pieces_complete s = []
      ∧ get_vod_prebuffering_progress s = 0%float
      ∧ get_vod_playable s = false
      ∧ get_vod_playable_after s = 2147483648%float.
Proof.
  assert (is_Some (None : option string) ∨ is_Some (Some DLSTATUS_HASHCHECKING)) as H
    by (right; by eexists).
  split; [exact H|].
  exact (override_or_error_discards_stats 1 (Some DLSTATUS_HASHCHECKING) None 0%float
           slow_stats None None H).
Defined.

(** X2: a snapshot constructed on a pure statistics tick answers from the
    bundle it was given: the rates divided by 1024.0, active connections
    exactly when [numSeeds + numPeers > 0], and the three video-on-demand
    fields unchanged, whatever the piece ranges did to status and
    progress. *)
Theorem stats_tick_answers_from_bundle (download : positive) (progress : float)
    (st : Stats) (filepieceranges : option (list piecerange))
    (logmsgs : option (list (float * string))) (s : DownloadState) :
  __init__ download None None progress (Some st) filepieceranges logmsgs = Ok s →
  get_current_speed s UPLOAD = PrimFloat.div (up st) 1024%float
  ∧ get_current_speed s DOWNLOAD = PrimFloat.div (down st) 1024%float
  ∧ (has_active_connections s = true ↔ numSeeds (stats_stats st) + numPeers (stats_stats st) > 0)
  ∧ get_vod_prebuffering_progress s = vod_prebuf_frac st
  ∧ get_vod_playable s = vod_playable st
  ∧ get_vod_playable_after s = vod_playable_after st.
Proof.
  intros (Hst & _)%init_stats_tick_inv.
  unfold get_current_speed, has_active_connections, get_vod_prebuffering_progress,
    get_vod_playable, get_vod_playable_after.
  rewrite Hst. repeat split; try done.
  - by intros ?%bool_decide_eq_true.
  - intros. by apply bool_decide_eq_true.
Qed.

(** The full-completion example: the override changes status and progress
    and leaves the rates alone. *)
Lemma stats_tick_answers_from_bundle_witness :
  __init__ 1 None None 0%float (Some (engine_stats 0.5 bitmap5))
    (Some [(0, 3, "video.avi")]) None = Ok first_file_snapshot
  ∧ get_current_speed first_file_snapshot UPLOAD = 2%float
  ∧ get_current_speed first_file_snapshot DOWNLOAD = 4%float.
Proof.
  split; [reflexivity|].
  pose proof (stats_tick_answers_from_bundle 1 0%float (engine_stats 0.5 bitmap5)
                (Some [(0, 3, "video.avi")]) None first_file_snapshot eq_refl)
    as (Hup & Hdown & _).
  split; [exact Hup | exact Hdown].
Defined.

(** X4: when [get_num_seeds_peers] answers two numbers they are both
    non-negative and add up to the length of the bundle's peer list. *)
Theorem num_seeds_peers_partition (s : DownloadState) (seeds peers : Z) :
  get_num_seeds_peers s = (Some seeds, Some peers) →
  ∃ st sp, stats s = Some st ∧ spew st = Some sp
    ∧ 0 ≤ seeds ∧ 0 ≤ peers ∧ seeds + peers = Z.of_nat (length sp).
Proof.
  unfold get_num_seeds_peers.
  destruct (stats s) as [st|]; [|done].
  destruct (spew st) as [sp|] eqn:Hsp; [|done].
  intros [= <- <-]. exists st, sp. split; [done|]. split; [done|].
  pose proof (filter_split_length is_seed sp). lia.
Qed.

(** One seed and two peers still downloading. *)
Lemma num_seeds_peers_partition_witness :
  ∃ s : DownloadState,
    get_num_seeds_peers s = (Some 1, Some 2)
    ∧ ∃ st sp, stats s = Some st ∧ spew st = Some sp
        ∧ 0 ≤ 1 ∧ 0 ≤ 2 ∧ 1 + 2 = Z.of_nat (length sp).
Proof.
  exists {| download := 1; filepieceranges := None; logmsgs := None; error := None;
            progress := 0.5%float; status := Some DLSTATUS_DOWNLOADING;
            stats := Some {| frac := 0.5%float; up := 0%float; down := 0%float;
                             stats_stats := {| have := []; numSeeds := 1; numPeers := 2 |};
                             spew := Some [ {| completed := 0.25%float |};
                                            {| completed := 1%float |};
                                            {| completed := 0.75%float |} ];
                             vod_prebuf_frac := 0%float; vod_playable := false;
                             vod_playable_after := 0%float |};
            haveslice := Some [] |}.
  split; [reflexivity|].
  eapply num_seeds_peers_partition. reflexivity.
Defined.

(** X5: whenever the constructor returns, on any of its four paths, the
    snapshot gives back the download, the error and the log messages it was
    handed ([[]] for no log messages) and keeps the piece ranges. *)
Theorem init_keeps_what_it_was_handed (d : positive)
    (st : option dlstatus) (err : option string) (p : float)
    (stats0 : option Stats) (oranges : option (list piecerange))
    (logs : option (list (float * string))) (s : DownloadState) :
  __init__ d st err p stats0 oranges logs = Ok s →
  get_download s = d
  ∧ get_error s = err
  ∧ get_log_messages s = default [] logs
  ∧ filepieceranges s = oranges.
Proof.
  unfold get_download, get_error, get_log_messages.
  destruct stats0 as [bundle|]; [|by intros [= <-]; destruct logs].
  destruct err as [e|]; [by intros [= <-]; destruct logs|].
  destruct st as [o|]; [by intros [= <-]; destruct logs|].
  intros (_ & -> & -> & -> & ->)%init_stats_tick_inv. by destruct logs.
Qed.

(** A statistics tick with one logged tracker failure. *)
Lemma init_keeps_what_it_was_handed_witness :
  ∃ s : DownloadState,
    __init__ 7 None None 0%float (Some (engine_stats 0.5 bitmap5)) None
      (Some [(1200000000%float, "tracker timeout")]) = Ok s
    ∧ get_download s = 7%positive
    ∧ get_error s = None
    ∧ get_log_messages s = [(1200000000%float, "tracker timeout")].
Proof.
  eexists. split; [reflexivity|].
  pose proof (init_keeps_what_it_was_handed 7 None None 0%float
                (Some (engine_stats 0.5 bitmap5)) None
                (Some [(1200000000%float, "tracker timeout")]) _ eq_refl)
    as (Hd & He & Hl & _).
  split; [exact Hd|]. split; [exact He | exact Hl].
Defined.

(** ** More of the piece-range loop *)

Lemma pieces_of_empty (ranges : list piecerange) :
  Forall (fun '(t, tl, f) => tl ≤ t) ranges → pieces_of ranges = [].
Proof.
  unfold pieces_of. induction 1 as [|[[t tl] f] ranges Hle _ IH]; simpl; [done|].
  rewrite IH, app_nil_r. unfold range, seqZ.
  by replace (Z.to_nat (tl - t)) with 0%nat by lia.
Qed.

Lemma init_empty_ranges (d : positive) (p : float) (st : Stats)
    (ranges : list piecerange) (logs : option (list (float * string))) :
  Forall (fun '(t, tl, f) => tl ≤ t) ranges →
  __init__ d None None p (Some st) (Some ranges) logs
  = Ok (set_seeding (set_haveslice (copy_info_from_stats d (Some ranges) logs st) [])).
Proof.
  intros Hempty. rewrite init_stats_ranges. cbv zeta.
  rewrite (pieces_of_empty _ Hempty). simpl.
  done.
Qed.

(** X8: a range list none of whose ranges holds a piece ([end <= start]
    for every range, wherever the bounds lie) is accepted: the projection
    is empty and the snapshot reports SEEDING at progress 1.0. *)
Theorem pieceless_ranges_report_seeding (d : positive) (p : float) (st : Stats)
    (ranges : list piecerange) (logs : option (list (float * string))) :
  Forall (fun '(t, tl, f) => tl ≤ t) ranges →
  ∃ s : DownloadState,
    __init__ d None None p (Some st) (Some ranges) logs = Ok s
    ∧ get_pieces_complete s = []
    ∧ get_status s = Some DLSTATUS_SEEDING
    ∧ get_progress s = 1%float.
Proof.
  intros Hempty. eexists. split; [by apply init_empty_ranges|]. done.
Qed.

(** Two ranges without pieces, one of them far outside the bitmap. *)
Lemma pieceless_ranges_report_seeding_witness :
  Forall (fun '(t, tl, f) => tl ≤ t) [(2, 2, "a.avi"); (90, 40, "b.avi")]
  ∧ ∃ s : DownloadState,
      __init__ 1 None None 0%float (Some (engine_stats 0.5 bitmap5))
        (Some [(2, 2, "a.avi"); (90, 40, "b.avi")]) None = Ok s
      ∧ get_pieces_complete s = []
      ∧ get_status s = Some DLSTATUS_SEEDING
      ∧ get_progress s = 1%float.
Proof.
  assert (Forall (fun '(t, tl, f) => tl ≤ t) [(2, 2, "a.avi"); (90, 40, "b.avi")]) as H
    by (repeat constructor; lia).
  split; [exact H|].
  exact (pieceless_ranges_report_seeding 1 0%float (engine_stats 0.5 bitmap5)
           [(2, 2, "a.avi"); (90, 40, "b.avi")] None H).
Defined.

(** X6: a snapshot constructed on a pure statistics tick is SEEDING or
    DOWNLOADING and nothing else, and it is SEEDING exactly when
    [frac == 1.0] or a range list is present and every projected piece is
    complete. *)
Theorem stats_tick_seeding_iff (d : positive) (p : float) (st : Stats)
    (oranges : option (list piecerange))
    (logs : option (list (float * string))) (s : DownloadState) :
  __init__ d None None p (Some st) oranges logs = Ok s →
  (get_status s = Some DLSTATUS_SEEDING ∨ get_status s = Some DLSTATUS_DOWNLOADING)
  ∧ (get_status s = Some DLSTATUS_SEEDING
     ↔ PrimFloat.eqb (frac st) 1%float = true
       ∨ (is_Some oranges ∧ Forall (fun b => b = true) (get_pieces_complete s))).
Proof.
  destruct oranges as [ranges|].
  - intros (vs & _ & _ & Hvs & ->)%init_stats_ranges_inv. cbv zeta in *.
    rewrite <- forallb_id_true, Hvs.
    destruct (forallb id vs) eqn:Hall; simpl.
    + split; [by left|]. split; [|done]. intros _. right. split; [by eexists | done].
    + destruct (PrimFloat.eqb (frac st) 1%float); simpl.
      * split; [by left|]. split; [by left | done].
      * split; [by right|]. split; [done|]. by intros [?|[_ ?]].
  - intros [= <-]. simpl.
    destruct (PrimFloat.eqb (frac st) 1%float); simpl.
    + split; [by left|]. split; [by left | done].
    + split; [by right|]. split; [done|]. by intros [?|[[? [=]] _]].
Qed.

(** The spec's no-override example is DOWNLOADING, hence not both. *)
Lemma stats_tick_seeding_iff_witness :
  __init__ 1 None None 0%float (Some (engine_stats 0.5 bitmap5))
    (Some [(0, 5, "video.avi")]) None = Ok whole_file_snapshot
  ∧ (get_status whole_file_snapshot = Some DLSTATUS_SEEDING
     ∨ get_status whole_file_snapshot = Some DLSTATUS_DOWNLOADING).
Proof.
  split; [reflexivity|].
  eapply (stats_tick_seeding_iff 1 0%float (engine_stats 0.5 bitmap5)
            (Some [(0, 5, "video.avi")]) None whole_file_snapshot).
  reflexivity.
Defined.

Lemma pieces_of_length_widths (ranges : list piecerange) :
  sum_of_widths ranges ≤ Z.of_nat (length (pieces_of ranges)).
Proof.
  unfold pieces_of. induction ranges as [|[[t tl] f] ranges IH]; simpl; [done|].
  rewrite length_app, length_range. lia.
Qed.

Lemma pieces_of_length_negative (ranges : list piecerange) (t tl : Z) (f : string) :
  (t, tl, f) ∈ ranges → tl < t →
  sum_of_widths ranges < Z.of_nat (length (pieces_of ranges)).
Proof.
  intros Hin Hneg. unfold pieces_of.
  induction ranges as [|[[t' tl'] f'] ranges IH]; [by apply elem_of_nil in Hin|].
  simpl. rewrite length_app, length_range.
  pose proof (pieces_of_length_widths ranges) as Hle. unfold pieces_of in Hle.
  apply elem_of_cons in Hin as [[= <- <- <-]|Hin]; [lia|].
  specialize (IH Hin). lia.
Qed.

Lemma pieces_of_length_positive (ranges : list piecerange) (t tl : Z) (f : string) :
  (t, tl, f) ∈ ranges → t < tl → (0 < length (pieces_of ranges))%nat.
Proof.
  intros Hin Hlt.
  pose proof (elem_of_pieces_of ranges t tl f t Hin ltac:(lia)) as Hp.
  destruct (pieces_of ranges); [by apply elem_of_nil in Hp | simpl; lia].
Qed.

(** X7: on a pure statistics tick, a range list that holds both a range
    with a piece in it ([start < end]) and a range of negative width
    ([end < start]) makes construction raise IndexError: the negative
    width shortens [haveslice] below the number of pieces copied. *)
Theorem mixed_width_ranges_raise (d : positive) (p : float) (st : Stats)
    (ranges : list piecerange) (logs : option (list (float * string)))
    (t1 tl1 t2 tl2 : Z) (f1 f2 : string) :
  (t1, tl1, f1) ∈ ranges → t1 < tl1 →
  (t2, tl2, f2) ∈ ranges → tl2 < t2 →
  __init__ d None None p (Some st) (Some ranges) logs = Raise IndexError.
Proof.
  intros Hin1 Hpos Hin2 Hneg. rewrite init_stats_ranges. cbv zeta.
  destruct (comprehension _ _) as [vs|e] eqn:Hvs; [|done].
  apply comprehension_length in Hvs.
  pose proof (pieces_of_length_negative _ _ _ _ Hin2 Hneg).
  pose proof (pieces_of_length_positive _ _ _ _ Hin1 Hpos).
  rewrite count_pieces_sum. by rewrite decide_False by lia.
Qed.

(** Both ranges lie inside the five-piece bitmap. *)
Lemma mixed_width_ranges_raise_witness :
  (0, 2, "a.avi") ∈ [(0, 2, "a.avi"); (3, 2, "b.avi")]
  ∧ 0 < 2
  ∧ (3, 2, "b.avi") ∈ [(0, 2, "a.avi"); (3, 2, "b.avi")]
  ∧ 2 < 3
  ∧ __init__ 1 None None 0%float (Some (engine_stats 0.5 bitmap5))
      (Some [(0, 2, "a.avi"); (3, 2, "b.avi")]) None = Raise IndexError.
Proof.
  assert ((0, 2, "a.avi") ∈ [(0, 2, "a.avi"); (3, 2, "b.avi")]) as H1
    by apply list_elem_of_here.
  assert ((3, 2, "b.avi") ∈ [(0, 2, "a.avi"); (3, 2, "b.avi")]) as H2
    by apply list_elem_of_further, list_elem_of_here.
  assert (0 < 2) as Hpos by lia. assert (2 < 3) as Hneg by lia.
  split; [exact H1|]. split; [exact Hpos|]. split; [exact H2|]. split; [exact Hneg|].
  exact (mixed_width_ranges_raise 1 0%float (engine_stats 0.5 bitmap5)
           [(0, 2, "a.avi"); (3, 2, "b.avi")] None 0 2 3 2 "a.avi" "b.avi"
           H1 Hpos H2 Hneg).
Defined.

Lemma comprehension_lookup {A B} (f : A → result B) (l : list A) (ys : list B)
    (i : nat) (x : A) :
  comprehension f l = Ok ys → l !! i = Some x →
  ∃ y, f x = Ok y ∧ ys !! i = Some y.
Proof.
  revert ys i. induction l as [|a l IH]; intros ys i; simpl; [done|].
  destruct (f a) as [b|e] eqn:Hfa; simpl; [|done].
  destruct (comprehension f l) as [ys'|e]; simpl; [|done].
  intros [= <-]. destruct i as [|i]; simpl.
  - intros [= <-]. by exists b.
  - intros Hx. by apply IH.
Qed.

(** X11: when construction succeeds with a range list, the projected
    sequence has one flag per piece visited, and its [i]-th flag is the
    bitmap's flag at the [i]-th piece visited, read with the subscript the
    code uses (so a negative piece number counts from the end). *)
Theorem projection_follows_visit_order (d : positive) (p : float) (st : Stats)
    (ranges : list piecerange) (logs : option (list (float * string)))
    (s : DownloadState) :
  __init__ d None None p (Some st) (Some ranges) logs = Ok s →
  length (get_pieces_complete s) = length (pieces_of ranges)
  ∧ ∀ (i : nat) (piece : Z), pieces_of ranges !! i = Some piece →
      ∃ b : bool, getitem (have (stats_stats st)) piece = Ok b
                  ∧ get_pieces_complete s !! i = Some b.
Proof.
  intros (vs & Hvs & _ & -> & _)%init_stats_ranges_inv. split.
  - by apply comprehension_length in Hvs.
  - intros i piece Hpiece. by apply (comprehension_lookup _ _ _ _ _ Hvs).
Qed.

(** The third flag of the projection of [[(3,5); (0,2)]] is piece 0. *)
Lemma projection_follows_visit_order_witness :
  ∃ s : DownloadState,
    __init__ 1 None None 0%float (Some (engine_stats 0.5 bitmap5))
      (Some [(3, 5, "b.avi"); (0, 2, "a.avi")]) None = Ok s
    ∧ length (get_pieces_complete s) = 4%nat.
Proof.
  eexists. split; [reflexivity|].
  eapply (projection_follows_visit_order 1 0%float (engine_stats 0.5 bitmap5)
            [(3, 5, "b.avi"); (0, 2, "a.avi")] None).
  reflexivity.
Defined.

Lemma slices_concat_app (bitmap : list bool) (r1 r2 : list piecerange) :
  slices_concat bitmap (r1 ++ r2) = slices_concat bitmap r1 ++ slices_concat bitmap r2.
Proof. unfold slices_concat. by rewrite map_app, concat_app. Qed.

(** X10: for range lists inside the bitmap, projecting the two lists one
    after the other gives the first projection followed by the second;
    nothing is merged or dropped, so a piece named twice is reported
    twice. *)
Theorem projection_of_appended_ranges (d : positive) (p : float) (st : Stats)
    (r1 r2 : list piecerange) (logs : option (list (float * string))) :
  Forall (range_ok (have (stats_stats st))) r1 →
  Forall (range_ok (have (stats_stats st))) r2 →
  ∃ s1 s2 s12 : DownloadState,
    __init__ d None None p (Some st) (Some r1) logs = Ok s1
    ∧ __init__ d None None p (Some st) (Some r2) logs = Ok s2
    ∧ __init__ d None None p (Some st) (Some (r1 ++ r2)) logs = Ok s12
    ∧ get_pieces_complete s12 = get_pieces_complete s1 ++ get_pieces_complete s2.
Proof.
  intros H1 H2.
  destruct (init_stats_ranges_ok d p st r1 logs H1) as (s1 & Hs1 & Hp1).
  destruct (init_stats_ranges_ok d p st r2 logs H2) as (s2 & Hs2 & Hp2).
  destruct (init_stats_ranges_ok d p st (r1 ++ r2) logs) as (s12 & Hs12 & Hp12);
    [by apply Forall_app|].
  exists s1, s2, s12. repeat split; try done.
  by rewrite Hp1, Hp2, Hp12, slices_concat_app.
Qed.

(** The same file selected twice. *)
Lemma projection_of_appended_ranges_witness :
  Forall (range_ok bitmap5) [(2, 4, "a.avi")]
  ∧ ∃ s1 s2 s12 : DownloadState,
      __init__ 1 None None 0%float (Some (engine_stats 0.5 bitmap5))
        (Some [(2, 4, "a.avi")]) None = Ok s1
      ∧ __init__ 1 None None 0%float (Some (engine_stats 0.5 bitmap5))
          (Some [(2, 4, "a.avi")]) None = Ok s2
      ∧ __init__ 1 None None 0%float (Some (engine_stats 0.5 bitmap5))
          (Some ([(2, 4, "a.avi")] ++ [(2, 4, "a.avi")])) None = Ok s12
      ∧ get_pieces_complete s12 = get_pieces_complete s1 ++ get_pieces_complete s2.
Proof.
  assert (Forall (range_ok bitmap5) [(2, 4, "a.avi")]) as H
    by (repeat constructor; simpl; lia).
  split; [exact H|].
  exact (projection_of_appended_ranges 1 0%float (engine_stats 0.5 bitmap5)
           [(2, 4, "a.avi")] [(2, 4, "a.avi")] None H H).
Defined.

Lemma getitem_negative {A} (l : list A) (j : Z) :
  - Z.of_nat (length l) ≤ j < 0 → getitem l j = getitem l (j + Z.of_nat (length l)).
Proof.
  intros Hj.
  assert ((j + Z.of_nat (length l) <? 0) = false) as E by (apply Z.ltb_ge; lia).
  unfold getitem, norm_index.
  destruct (Z.ltb_spec j 0); [|lia].
  by rewrite !E.
Qed.

Lemma comprehension_ext_in {A B} (f g : A → result B) (l : list A) :
  (∀ x, x ∈ l → f x = g x) → comprehension f l = comprehension g l.
Proof.
  induction l as [|a l IH]; intros Hext; simpl; [done|].
  rewrite (Hext a) by apply list_elem_of_here.
  rewrite IH; [done|]. intros x Hx. apply Hext. by apply list_elem_of_further.
Qed.

Lemma comprehension_fmap {A B C} (f : B → result C) (g : A → B) (l : list A) :
  comprehension f (g <$> l) = comprehension (fun x => f (g x)) l.
Proof. induction l as [|a l IH]; [done|]. rewrite fmap_cons. simpl. by rewrite IH. Qed.

Lemma comprehension_range_negative (bitmap : list bool) (t tl : Z) :
  - Z.of_nat (length bitmap) ≤ t → t ≤ tl → tl ≤ 0 →
  comprehension (getitem bitmap) (range t tl)
  = Ok (take (Z.to_nat (tl - t)) (drop (Z.to_nat (t + Z.of_nat (length bitmap))) bitmap)).
Proof.
  intros Ht Htl Hneg.
  rewrite (comprehension_ext_in _ (fun x => getitem bitmap (Z.of_nat (length bitmap) + x))).
  - rewrite <- (comprehension_fmap (getitem bitmap) (Z.add (Z.of_nat (length bitmap)))).
    unfold range. rewrite fmap_add_seqZ.
    replace (tl - t) with ((Z.of_nat (length bitmap) + tl) - (Z.of_nat (length bitmap) + t))
      at 1 by lia.
    fold (range (Z.of_nat (length bitmap) + t) (Z.of_nat (length bitmap) + tl)).
    rewrite comprehension_range by lia.
    unfold slice, clamp_index.
    destruct (Z.ltb_spec (Z.of_nat (length bitmap) + t) 0); [lia|].
    destruct (Z.ltb_spec (Z.of_nat (length bitmap) + tl) 0); [lia|].
    rewrite !Z.min_l by lia. do 2 f_equal; [f_equal; lia|]. f_equal. lia.
  - intros x Hx. unfold range in Hx. apply elem_of_seqZ in Hx.
    rewrite getitem_negative by lia. f_equal. lia.
Qed.

(** X9: a range with negative piece numbers is not rejected.  For
    [-len(bitmap) <= start <= end <= 0] the single range [(start, end)]
    projects the pieces counted from the end of the bitmap: the
    [end - start] flags that begin at piece [len(bitmap) + start]. *)
Theorem negative_range_counts_from_end (d : positive) (p : float) (st : Stats)
    (logs : option (list (float * string))) (t tl : Z) (f : string) :
  - Z.of_nat (length (have (stats_stats st))) ≤ t → t ≤ tl → tl ≤ 0 →
  ∃ s : DownloadState,
    __init__ d None None p (Some st) (Some [(t, tl, f)]) logs = Ok s
    ∧ get_pieces_complete s
      = take (Z.to_nat (tl - t))
          (drop (Z.to_nat (t + Z.of_nat (length (have (stats_stats st)))))
             (have (stats_stats st))).
Proof.
  intros Ht Htl Hneg. rewrite init_stats_ranges. cbv zeta.
  unfold pieces_of. simpl. rewrite app_nil_r.
  pose proof (comprehension_range_negative _ _ _ Ht Htl Hneg) as Hc.
  rewrite Hc. apply comprehension_length in Hc. rewrite length_range in Hc.
  unfold count_pieces. simpl.
  rewrite decide_True by lia.
  eexists. split; [done|]. by destruct (forallb id _).
Qed.

(** The range [(-2, 0)] over [bitmap5] projects its last two pieces. *)
Lemma negative_range_counts_from_end_witness :
  - Z.of_nat (length (have (stats_stats (engine_stats 0.5 bitmap5)))) ≤ -2
  ∧ -2 ≤ 0
  ∧ ∃ s : DownloadState,
      __init__ 1 None None 0%float (Some (engine_stats 0.5 bitmap5))
        (Some [(-2, 0, "video.avi")]) None = Ok s
      ∧ get_pieces_complete s = [false; true].
Proof.
  assert (- Z.of_nat (length (have (stats_stats (engine_stats 0.5 bitmap5)))) ≤ -2) as Ht
    by (simpl; lia).
  assert (-2 ≤ 0) as Htl by lia.
  assert (0 ≤ 0) as Hneg by lia.
  split; [exact Ht|]. split; [exact Htl|].
  exact (negative_range_counts_from_end 1 0%float (engine_stats 0.5 bitmap5) None
           (-2) 0 "video.avi" Ht Htl Hneg).
Defined.
